(** * Vector.py: a 3D vector class, embedded and checked against its specification

    The file follows Vector.py method by method.  Python values are modelled
    twice through one interface ([Py.Number]):

    - [PyVal]: the values the interpreter really computes with, binary64
      floats (the kernel's primitive floats, so every method can be run on
      concrete arguments), unbounded ints and None, with the exceptions the
      interpreter raises;
    - [Exact]: the same operations read over the real numbers, that is the
      values the float operations round.

    The class itself ([Vector]) is translated once, over the interface. *)

From Stdlib Require Import ZArith Bool List String Floats Reals Lra Lia Psatz.
Import ListNotations.

Set Warnings "-inexact-float".

(** ** The fragment of the Python runtime that Vector.py relies on *)

Module Py.

(** The built-in exceptions that the methods of [Vector] can raise. *)
Inductive exn : Set :=
| TypeError
| ValueError
| OverflowError
| ZeroDivisionError.

(** The outcome of evaluating an expression: a value, or a raised exception. *)
Inductive result (A : Type) : Type :=
| Ok (a : A)
| Raise (e : exn).
Arguments Ok {A} a.
Arguments Raise {A} e.

Definition bind {A B : Type} (r : result A) (k : A -> result B) : result B :=
  match r with
  | Ok a => k a
  | Raise e => Raise e
  end.

Definition returns {A : Type} (r : result A) : Prop := exists a, r = Ok a.

Definition raises {A : Type} (r : result A) : Prop := exists e, r = Raise e.

(** What Vector.py asks of the objects it stores as coordinates: the
    built-in [float()], the binary operators, [** 2], and [math.sqrt] and
    [math.isclose] (always called with the default tolerances). *)
Class Number (num : Type) : Type := {
  int_lit : Z -> num;                       (* an int literal: 0, 1, 2 *)
  float_zero : num;                         (* the literal 0.0 *)
  float_one : num;                          (* the literal 1.0 *)
  py_float : num -> result num;               (* float(a) *)
  py_add : num -> num -> result num;            (* a + b *)
  py_sub : num -> num -> result num;            (* a - b *)
  py_mul : num -> num -> result num;            (* a * b *)
  py_truediv : num -> num -> result num;        (* a / b *)
  py_pow2 : num -> result num;                (* a ** 2 *)
  math_sqrt : num -> result num;              (* math.sqrt(a) *)
  math_isclose : num -> num -> result bool    (* math.isclose(a, b) *)
}.

End Py.

Import Py.

Declare Scope py_scope.
Delimit Scope py_scope with py.
Notation "x <- e ;; k" := (bind e (fun x => k))
  (at level 61, e at next level, right associativity) : py_scope.
Open Scope py_scope.

(** ** Python values: binary64 floats, ints and None *)

Module PyVal.

Inductive pyval : Set :=
| PyFloat (f : float)
| PyInt (n : Z)
| PyNone.

Definition prec : Z := 53.
Definition emax : Z := 1024.

(** An integer as an (unnormalised) binary floating-point datum. *)
Definition Z2SF (n : Z) : spec_float :=
  match n with
  | Z0 => S754_zero false
  | Zpos p => S754_finite false p 0
  | Zneg p => S754_finite true p 0
  end.

(** [PyLong_AsDouble]: the nearest double, ties to even; OverflowError
    ("int too large to convert to float") when that is an infinity. *)
Definition int_to_double (n : Z) : result float :=
  let f := SF2Prim (binary_normalize prec emax n 0 false) in
  if PrimFloat.is_infinity f then Raise OverflowError else Ok f.

(** [PyFloat_AsDouble], the conversion behind [float()] and behind the
    arguments of the [math] functions. *)
Definition as_double (a : pyval) : result float :=
  match a with
  | PyFloat f => Ok f
  | PyInt n => int_to_double n
  | PyNone => Raise TypeError
  end.

Definition float_ (a : pyval) : result pyval :=
  f <- as_double a ;; Ok (PyFloat f).

(** [+], [-] and [*]: exact on two ints; otherwise an int operand is
    converted and the IEEE operation is applied (no exception on overflow:
    the result is an infinity). *)
Definition arith (fop : float -> float -> float) (zop : Z -> Z -> Z)
    (a b : pyval) : result pyval :=
  match a, b with
  | PyInt n, PyInt m => Ok (PyInt (zop n m))
  | PyNone, _ | _, PyNone => Raise TypeError
  | _, _ =>
      f <- as_double a ;;
      g <- as_double b ;;
      Ok (PyFloat (fop f g))
  end.

Definition add := arith PrimFloat.add Z.add.
Definition sub := arith PrimFloat.sub Z.sub.
Definition mul := arith PrimFloat.mul Z.mul.

(** [/]: ZeroDivisionError on a zero divisor.  Two ints are divided exactly
    and the quotient rounded once ([long_true_divide]); OverflowError when
    it is too large for a float. *)
Definition truediv (a b : pyval) : result pyval :=
  match a, b with
  | PyInt n, PyInt m =>
      if (m =? 0)%Z then Raise ZeroDivisionError
      else
        let q := SF2Prim (SFdiv prec emax (Z2SF n) (Z2SF m)) in
        if PrimFloat.is_infinity q then Raise OverflowError
        else Ok (PyFloat q)
  | PyNone, _ | _, PyNone => Raise TypeError
  | _, _ =>
      f <- as_double a ;;
      g <- as_double b ;;
      if PrimFloat.eqb g 0%float then Raise ZeroDivisionError
      else Ok (PyFloat (PrimFloat.div f g))
  end.

(** [a ** 2].  For a float, [float_pow] returns nan, inf, 0.0 and 1.0 on
    its special cases and otherwise calls the C library's [pow(|a|, 2.0)],
    raising OverflowError when that overflows; the library's square is
    taken to be the correctly rounded one, which is also what [a * a]
    gives on the special cases. *)
Definition pow2 (a : pyval) : result pyval :=
  match a with
  | PyFloat f =>
      let p := PrimFloat.mul f f in
      if PrimFloat.is_finite f && PrimFloat.is_infinity p
      then Raise OverflowError
      else Ok (PyFloat p)
  | PyInt n => Ok (PyInt (n * n))
  | PyNone => Raise TypeError
  end.

(** [math.sqrt]: the argument is converted to a double; a negative one is
    a "math domain error". *)
Definition sqrt (a : pyval) : result pyval :=
  d <- as_double a ;;
  if PrimFloat.ltb d 0%float then Raise ValueError
  else Ok (PyFloat (PrimFloat.sqrt d)).

Definition rel_tol : float := 1e-09%float.
Definition abs_tol : float := 0.0%float.

(** [math.isclose] on two doubles, as in mathmodule.c. *)
Definition isclose_double (a b : float) : bool :=
  if PrimFloat.eqb a b then true
  else if PrimFloat.is_infinity a || PrimFloat.is_infinity b then false
  else
    let diff := PrimFloat.abs (PrimFloat.sub b a) in
    PrimFloat.leb diff (PrimFloat.abs (PrimFloat.mul rel_tol b))
    || PrimFloat.leb diff (PrimFloat.abs (PrimFloat.mul rel_tol a))
    || PrimFloat.leb diff abs_tol.

Definition isclose (a b : pyval) : result bool :=
  f <- as_double a ;;
  g <- as_double b ;;
  Ok (isclose_double f g).

#[export] Instance pyval_Number : Number pyval := {|
  int_lit := PyInt;
  float_zero := PyFloat 0.0%float;
  float_one := PyFloat 1.0%float;
  py_float := float_;
  py_add := add;
  py_sub := sub;
  py_mul := mul;
  py_truediv := truediv;
  py_pow2 := pow2;
  math_sqrt := sqrt;
  math_isclose := isclose
|}.

End PyVal.

(** ** The same operations over the real numbers

    Each operation returns the real number that its float counterpart
    rounds: nothing overflows, and the only exceptions left are the division
    by zero and the square root of a negative number. *)

Module Exact.

Local Open Scope R_scope.

Definition rel_tol : R := / 1000000000.
Definition abs_tol : R := 0.


Definition Rltb (a b : R) : bool := if Rlt_dec a b then true else false.

Definition Reqb (a b : R) : bool := if Req_dec_T a b then true else false.

Definition truediv (a b : R) : result R :=
  if Reqb b 0 then Raise ZeroDivisionError else Ok (a / b).

Definition sqrt (a : R) : result R :=
  if Rltb a 0 then Raise ValueError else Ok (R_sqrt.sqrt a).



End Exact.

(** ** class Vector *)

Module Vector.

Section WithNumber.

Context {num : Type} {N : Number num}.

(** An instance: the three coordinates and the cached magnitude
    ([None] until [magnitude()] has run, and again after a setter). *)
Record t : Type := mk {
  _x : num;
  _y : num;
  _z : num;
  _magnitude : option num
}.

(** A method that may mutate the object it is called on returns its
    outcome together with the object afterwards; an exception does not
    undo what the method did before raising. *)
Definition method (A : Type) : Type := t -> result A * t.

(** Any Python object handed to [__eq__]. *)
Inductive object : Type :=
| Instance (v : t)
| Other (a : num).

(** [Vector(x, y, z)]; an omitted argument is the int [0]. *)
Definition __init__ (x y z : num) : result t :=
  fx <- py_float x ;;
  fy <- py_float y ;;
  fz <- py_float z ;;
  Ok (mk fx fy fz None).

(** *** Properties *)

Definition x (self : t) : num := _x self.
Definition y (self : t) : num := _y self.
Definition z (self : t) : num := _z self.

Definition x_setter (new_x : num) : method unit := fun self =>
  match py_float new_x with
  | Ok f => (Ok tt, mk f (_y self) (_z self) None)
  | Raise e => (Raise e, self)
  end.

Definition y_setter (new_y : num) : method unit := fun self =>
  match py_float new_y with
  | Ok f => (Ok tt, mk (_x self) f (_z self) None)
  | Raise e => (Raise e, self)
  end.

(** The z setter stores [new_z] as it is given: there is no [float()]. *)
Definition z_setter (new_z : num) : method unit := fun self =>
  (Ok tt, mk (_x self) (_y self) new_z None).

(** *** Magnitude and its cache *)

(** [math.sqrt(self.x**2 + self.y**2 + self.z**2)], in evaluation order. *)
Definition norm (self : t) : result num :=
  xx <- py_pow2 (x self) ;;
  yy <- py_pow2 (y self) ;;
  s <- py_add xx yy ;;
  zz <- py_pow2 (z self) ;;
  s' <- py_add s zz ;;
  math_sqrt s'.

Definition magnitude : method num := fun self =>
  match _magnitude self with
  | Some m => (Ok m, self)
  | None =>
      match norm self with
      | Ok m => (Ok m, mk (_x self) (_y self) (_z self) (Some m))
      | Raise e => (Raise e, self)
      end
  end.

(** *** Operators *)

(** The built-in [sum] of a sequence of numbers: it starts from int 0. *)
Definition py_sum (l : list num) : result num :=
  fold_left (fun acc a => s <- acc ;; py_add s a) l (Ok (int_lit 0)).

Definition __add__ (self : t) (vectors : list t) : result t :=
  sx <- py_sum (map x vectors) ;;
  ax <- py_add (x self) sx ;;
  sy <- py_sum (map y vectors) ;;
  ay <- py_add (y self) sy ;;
  sz <- py_sum (map z vectors) ;;
  az <- py_add (z self) sz ;;
  __init__ ax ay az.

Definition __sub__ (self : t) (vectors : list t) : result t :=
  sx <- py_sum (map x vectors) ;;
  ax <- py_sub (x self) sx ;;
  sy <- py_sum (map y vectors) ;;
  ay <- py_sub (y self) sy ;;
  sz <- py_sum (map z vectors) ;;
  az <- py_sub (z self) sz ;;
  __init__ ax ay az.

Definition __mul__ (self : t) (scalar : num) : result t :=
  ax <- py_mul (x self) scalar ;;
  ay <- py_mul (y self) scalar ;;
  az <- py_mul (z self) scalar ;;
  __init__ ax ay az.

Definition __rmul__ (self : t) (scalar : num) : result t :=
  __mul__ self scalar.

(** [and] evaluates its right operand only when the left one is true. *)
Definition __eq__ (self : t) (v : object) : result bool :=
  match v with
  | Other _ => Ok false
  | Instance v =>
      cx <- math_isclose (x self) (x v) ;;
      if cx then
        cy <- math_isclose (y self) (y v) ;;
        if cy then math_isclose (z self) (z v) else Ok false
      else Ok false
  end.

(** *** Products *)

Definition dot_product (self v : t) : result num :=
  px <- py_mul (x self) (x v) ;;
  py <- py_mul (y self) (y v) ;;
  s <- py_add px py ;;
  pz <- py_mul (z self) (z v) ;;
  py_add s pz.

Definition cross_product (self v : t) : result t :=
  a1 <- py_mul (y self) (z v) ;;
  a2 <- py_mul (z self) (y v) ;;
  a <- py_sub a1 a2 ;;
  b1 <- py_mul (z self) (x v) ;;
  b2 <- py_mul (x self) (z v) ;;
  b <- py_sub b1 b2 ;;
  c1 <- py_mul (x self) (y v) ;;
  c2 <- py_mul (y self) (x v) ;;
  c <- py_sub c1 c2 ;;
  __init__ a b c.




Definition to_tuple (self : t) : num * num * num :=
  (x self, y self, z self).

(** *** Methods that read the magnitude

    They run [magnitude()] on one object, whose cache may be filled by
    the call: that object is the state the method threads.  The other
    operand is only read, and only its coordinates are, which no method
    changes: passing it by value loses nothing, also when both operands
    are the same object. *)

Definition normalize : method t := fun self =>
  let (r, self') := magnitude self in
  (mag <- r ;;
   c <- math_isclose mag float_zero ;;
   if c then Raise ValueError
   else
     k <- py_truediv (int_lit 1) mag ;;
     __mul__ self' k,
   self').

Definition projection (self : t) : method t := fun v =>
  let (r, v') := magnitude v in
  (m <- r ;;
   mag_v_sq <- py_pow2 m ;;
   c <- math_isclose mag_v_sq float_zero ;;
   if c then Raise ValueError
   else
     d <- dot_product self v' ;;
     k <- py_truediv d mag_v_sq ;;
     __mul__ v' k,
   v').

Definition rejection (self : t) : method t := fun v =>
  let (r, v') := projection self v in
  (p <- r ;; __sub__ self [p], v').

Definition reflect (self : t) : method t := fun normal =>
  let (r, normal') := projection self normal in
  (p <- r ;;
   p2 <- __rmul__ p (int_lit 2) ;;
   __sub__ self [p2],
   normal').

Definition is_zero : method bool := fun self =>
  let (r, self') := magnitude self in
  (m <- r ;; math_isclose m float_zero, self').

Definition is_unit : method bool := fun self =>
  let (r, self') := magnitude self in
  (m <- r ;; math_isclose m float_one, self').


(** The return value of [direction_cosine]: the tuple, or the string. *)
Definition direction_cosine : method (num * num * num + string) :=
  fun self =>
  let (r, self') := magnitude self in
  (mag <- r ;;
   c <- math_isclose mag float_zero ;;
   if c then Ok (inr "Undefined for zero vector"%string)
   else
     cx <- py_truediv (x self') mag ;;
     cy <- py_truediv (y self') mag ;;
     cz <- py_truediv (z self') mag ;;
     Ok (inl (cx, cy, cz)),
   self').

(** *** The cache and the states an instance can be in *)

(** The cached magnitude, when there is one, is what [norm] computes
    from the coordinates the instance has now. *)
Definition cache_valid (self : t) : Prop :=
  forall m, _magnitude self = Some m -> norm self = Ok m.

(** The states of an instance: as [__init__] leaves it, and then after
    each call that can write one of its attributes, whether the call
    returns or raises.  The instance is the receiver of the setters, of
    [magnitude], [normalize], [is_zero], [is_unit] and
    [direction_cosine], and the argument of [projection], [rejection]
    and [reflect]. *)
Inductive reachable : t -> Prop :=
| reach_init (a b c : num) (v : t) :
    __init__ a b c = Ok v -> reachable v
| reach_x_setter (a : num) (v : t) :
    reachable v -> reachable (snd (x_setter a v))
| reach_y_setter (a : num) (v : t) :
    reachable v -> reachable (snd (y_setter a v))
| reach_z_setter (a : num) (v : t) :
    reachable v -> reachable (snd (z_setter a v))
| reach_magnitude (v : t) :
    reachable v -> reachable (snd (magnitude v))
| reach_normalize (v : t) :
    reachable v -> reachable (snd (normalize v))
| reach_is_zero (v : t) :
    reachable v -> reachable (snd (is_zero v))
| reach_is_unit (v : t) :
    reachable v -> reachable (snd (is_unit v))
| reach_direction_cosine (v : t) :
    reachable v -> reachable (snd (direction_cosine v))
| reach_projection (self v : t) :
    reachable v -> reachable (snd (projection self v))
| reach_rejection (self v : t) :
    reachable v -> reachable (snd (rejection self v))
| reach_reflect (self v : t) :
    reachable v -> reachable (snd (reflect self v)).

End WithNumber.

Arguments t num : clear implicits.
Arguments object num : clear implicits.
Arguments method num A : clear implicits.
Arguments mk {num} _x _y _z _magnitude.

End Vector.

Import Vector.

(** ** Instances with float coordinates

    What [__init__], the x and y setters and every operator produce: three
    floats, and a float in the cache when it is filled. *)

Definition float_vector (a b c : float) (cache : option float)
    : Vector.t PyVal.pyval :=
  mk (PyVal.PyFloat a) (PyVal.PyFloat b) (PyVal.PyFloat c)
     (option_map PyVal.PyFloat cache).

(** [Vector(a, b, c)] on three floats. *)
Definition Vector3 (a b c : float) : Vector.t PyVal.pyval :=
  float_vector a b c None.

(** A finite float whose square is too large for a float: [f ** 2] raises
    OverflowError (for |f| above about 1.34e154). *)
Definition square_overflows (f : float) : bool :=
  PrimFloat.is_finite f && PrimFloat.is_infinity (f * f)%float.

(** The sign of a floating-point datum is [s], unless it is a NaN. *)
Definition has_sign (s : bool) (r : spec_float) : Prop :=
  match r with
  | S754_nan => True
  | S754_zero s' | S754_infinity s' | S754_finite s' _ _ => s' = s
  end.

(** A NaN, on the specification side of the floats. *)
Definition SFis_nan (r : spec_float) : bool :=
  match r with
  | S754_nan => true
  | _ => false
  end.

(** ** The rest of the math module: angles

    [angle_between] and [rotate_around] also call [math.acos], [math.cos],
    [math.sin], [math.degrees] and [math.radians], and the built-in [min]
    and [max]. *)

Class Trig (num : Type) : Type := {
  float_neg_one : num;                      (* the literal -1.0 *)
  py_min : num -> num -> result num;        (* min(a, b) *)
  py_max : num -> num -> result num;        (* max(a, b) *)
  math_acos : num -> result num;            (* math.acos(a) *)
  math_cos : num -> result num;             (* math.cos(a) *)
  math_sin : num -> result num;             (* math.sin(a) *)
  math_degrees : num -> result num;         (* math.degrees(a) *)
  math_radians : num -> result num          (* math.radians(a) *)
}.

Module PyMath.

Import PyVal.

Local Open Scope float_scope.

(** [n ? r], exactly: Python compares an int with a float by value, with
    no conversion of the int. *)
Definition Zcompare_SF (n : Z) (r : spec_float) : option comparison :=
  match r with
  | S754_nan => None
  | S754_infinity s => Some (if s then Gt else Lt)
  | S754_zero _ => Some (n ?= 0)%Z
  | S754_finite s m e =>
      let v := cond_Zopp s (Zpos m) in
      Some (match e with
            | Zneg p => (n * 2 ^ Zpos p ?= v)%Z
            | _ => (n ?= v * 2 ^ e)%Z
            end)
  end.

(** [a < b]; None is not ordered. *)
Definition lt (a b : pyval) : result bool :=
  match a, b with
  | PyFloat f, PyFloat g => Ok (PrimFloat.ltb f g)
  | PyInt n, PyInt m => Ok (n <? m)%Z
  | PyInt n, PyFloat g =>
      Ok (match Zcompare_SF n (Prim2SF g) with Some Lt => true | _ => false end)
  | PyFloat f, PyInt m =>
      Ok (match Zcompare_SF m (Prim2SF f) with Some Gt => true | _ => false end)
  | _, _ => Raise TypeError
  end.

(** [min(a, b)]: [b] when [b < a], else [a]. *)
Definition min_ (a b : pyval) : result pyval :=
  c <- lt b a ;; Ok (if c then b else a).

(** [max(a, b)]: [b] when [b > a], else [a]. *)
Definition max_ (a b : pyval) : result pyval :=
  c <- lt a b ;; Ok (if c then b else a).

(** [math_1] of mathmodule.c, for a C library function that cannot
    overflow: a NaN result on a number and an infinite result on a finite
    argument are a ValueError ("math domain error"). *)
Definition math_1 (func : float -> float) (a : pyval) : result pyval :=
  d <- as_double a ;;
  let r := func d in
  if PrimFloat.is_nan r && negb (PrimFloat.is_nan d) then Raise ValueError
  else if PrimFloat.is_infinity r && PrimFloat.is_finite d
       then Raise ValueError
       else Ok (PyFloat r).

Definition Py_MATH_PI : float := 3.14159265358979323846.
Definition degToRad : float := Py_MATH_PI / 180.0.
Definition radToDeg : float := 180.0 / Py_MATH_PI.

Definition degrees (a : pyval) : result pyval :=
  d <- as_double a ;; Ok (PyFloat (d * radToDeg)).

Definition radians (a : pyval) : result pyval :=
  d <- as_double a ;; Ok (PyFloat (d * degToRad)).

(** The C library's [acos], [cos] and [sin] are parameters. *)
Definition pyval_Trig (acos cos sin : float -> float) : Trig pyval := {|
  float_neg_one := PyFloat (-1.0);
  py_min := min_;
  py_max := max_;
  math_acos := math_1 acos;
  math_cos := math_1 cos;
  math_sin := math_1 sin;
  math_degrees := degrees;
  math_radians := radians
|}.

(** [max(-1.0, min(1.0, q))] on a float. *)
Definition clamp (q : float) : float :=
  let t := if PrimFloat.ltb q 1 then q else 1 in
  if PrimFloat.ltb (-1) t then t else -1.

End PyMath.

Module ExactMath.

Import Exact.

Local Open Scope R_scope.

Definition min_ (a b : R) : result R := Ok (if Rltb b a then b else a).

Definition max_ (a b : R) : result R := Ok (if Rltb a b then b else a).

(** [max(-1.0, min(1.0, q))]. *)
Definition clamp (q : R) : R :=
  let lo := if Rltb q 1 then q else 1 in
  if Rltb (-1) lo then lo else -1.



End ExactMath.

Section Angles.

Context {num : Type} {N : Number num} {T : Trig num}.

(** [self.angle_between(v, degrees)]: the outcome, [self] and [v]
    afterwards (both magnitudes are read). *)
Definition angle_between (self v : Vector.t num) (degrees : bool)
    : result num * Vector.t num * Vector.t num :=
  let (r1, self') := magnitude self in
  match r1 with
  | Raise e => (Raise e, self', v)
  | Ok m1 =>
      let (r2, v') := magnitude v in
      (m2 <- r2 ;;
       mag_product <- py_mul m1 m2 ;;
       c <- math_isclose mag_product float_zero ;;
       if c then Raise ValueError
       else
         d <- dot_product self' v' ;;
         q <- py_truediv d mag_product ;;
         lo <- py_min float_one q ;;
         cos_theta <- py_max float_neg_one lo ;;
         theta <- math_acos cos_theta ;;
         if degrees then math_degrees theta else Ok theta,
       self', v')
  end.

(** [self.rotate_around(axis, angle, degrees)]: the outcome and [axis]
    afterwards. *)
Definition rotate_around (self : Vector.t num) (angle : num) (degrees : bool)
    : Vector.method num (Vector.t num) := fun axis =>
  match (if degrees then math_radians angle else Ok angle) with
  | Raise e => (Raise e, axis)
  | Ok angle =>
      let (r, axis') := normalize axis in
      (k <- r ;;
       c <- math_cos angle ;;
       a <- __mul__ self c ;;
       ks <- cross_product k self ;;
       s <- math_sin angle ;;
       b <- __mul__ ks s ;;
       ab <- __add__ a [b] ;;
       d <- dot_product k self ;;
       kd <- __mul__ k d ;;
       c' <- math_cos angle ;;
       c1 <- py_sub (int_lit 1) c' ;;
       kdc <- __mul__ kd c1 ;;
       __add__ ab [kdc],
       axis')
  end.

End Angles.

(** ** Exact arithmetic: the quantities the methods compute *)



(** ** The magnitude cache (C1) *)

Section Cache.

Context {num : Type} {N : Number num}.

Implicit Types v self : Vector.t num.

(** [norm] reads the coordinates only. *)
Lemma norm_coordinates v c :
  norm (mk (_x v) (_y v) (_z v) c) = norm v.
Proof. reflexivity. Qed.

(** What [magnitude] does to the instance: nothing, or it fills the cache
    with the freshly computed norm. *)
Lemma magnitude_state v :
  snd (magnitude v) = v
  \/ (_magnitude v = None /\ exists m, norm v = Ok m
      /\ snd (magnitude v) = mk (_x v) (_y v) (_z v) (Some m)).
Proof.
  unfold magnitude.
  destruct (_magnitude v) as [m|] eqn:Hc; [now left|].
  destruct (norm v) as [m|e] eqn:Hn; [right|now left].
  split; [reflexivity|]. now exists m.
Qed.

Lemma magnitude_keeps_valid v :
  cache_valid v -> cache_valid (snd (magnitude v)).
Proof.
  intros Hv.
  destruct (magnitude_state v) as [->|(_ & m & Hn & ->)]; [exact Hv|].
  intros m' Hm'. cbn in Hm'. injection Hm' as <-.
  rewrite norm_coordinates. exact Hn.
Qed.

(** Every other method touches the instance through [magnitude] only. *)
Lemma normalize_state v : snd (normalize v) = snd (magnitude v).
Proof. unfold normalize. now destruct (magnitude v). Qed.

Lemma is_zero_state v : snd (is_zero v) = snd (magnitude v).
Proof. unfold is_zero. now destruct (magnitude v). Qed.

Lemma is_unit_state v : snd (is_unit v) = snd (magnitude v).
Proof. unfold is_unit. now destruct (magnitude v). Qed.

Lemma direction_cosine_state v :
  snd (direction_cosine v) = snd (magnitude v).
Proof. unfold direction_cosine. now destruct (magnitude v). Qed.

Lemma projection_state self v :
  snd (projection self v) = snd (magnitude v).
Proof. unfold projection. now destruct (magnitude v). Qed.

Lemma rejection_state self v :
  snd (rejection self v) = snd (magnitude v).
Proof.
  unfold rejection. rewrite <- projection_state with (self := self).
  now destruct (projection self v).
Qed.

Lemma reflect_state self v : snd (reflect self v) = snd (magnitude v).
Proof.
  unfold reflect. rewrite <- projection_state with (self := self).
  now destruct (projection self v).
Qed.

Lemma init_cache a b c v : __init__ a b c = Ok v -> _magnitude v = None.
Proof.
  unfold __init__, bind. intros H.
  destruct (py_float a); [|discriminate].
  destruct (py_float b); [|discriminate].
  destruct (py_float c); [|discriminate].
  now injection H as <-.
Qed.

Lemma empty_cache_valid v : _magnitude v = None -> cache_valid v.
Proof. intros H m Hm. congruence. Qed.

Lemma x_setter_valid a v : cache_valid v -> cache_valid (snd (x_setter a v)).
Proof.
  intros Hv. unfold x_setter.
  destruct (py_float a); [now apply empty_cache_valid | exact Hv].
Qed.

Lemma y_setter_valid a v : cache_valid v -> cache_valid (snd (y_setter a v)).
Proof.
  intros Hv. unfold y_setter.
  destruct (py_float a); [now apply empty_cache_valid | exact Hv].
Qed.

Lemma reachable_cache_valid v : reachable v -> cache_valid v.
Proof.
  induction 1 as [a b c v Hi| | | | | | | | | | | ].
  - eapply empty_cache_valid, init_cache, Hi.
  - now apply x_setter_valid.
  - now apply y_setter_valid.
  - now apply empty_cache_valid.
  - now apply magnitude_keeps_valid.
  - rewrite normalize_state. now apply magnitude_keeps_valid.
  - rewrite is_zero_state. now apply magnitude_keeps_valid.
  - rewrite is_unit_state. now apply magnitude_keeps_valid.
  - rewrite direction_cosine_state. now apply magnitude_keeps_valid.
  - rewrite projection_state. now apply magnitude_keeps_valid.
  - rewrite rejection_state. now apply magnitude_keeps_valid.
  - rewrite reflect_state. now apply magnitude_keeps_valid.
Qed.

(** With a valid cache, [magnitude] returns (or raises) what computing the
    norm afresh does. *)
Lemma magnitude_is_norm v : cache_valid v -> fst (magnitude v) = norm v.
Proof.
  intros Hv. unfold magnitude.
  destruct (_magnitude v) as [m|] eqn:Hc.
  - symmetry. now apply Hv.
  - now destruct (norm v).
Qed.

End Cache.

(** C1.  Cache invariant.  In every state an instance can reach, a cached
    magnitude is the Euclidean norm of the current coordinates, and
    [magnitude()] returns what the norm of the current coordinates is.  A
    setter that returns has replaced its coordinate and cleared the cache
    (one that raises has changed nothing), so the next [magnitude()] is
    computed from the new coordinates. *)
Theorem magnitude_cache_invariant {num : Type} {N : Number num}
    (v : Vector.t num) (H : reachable v) :
  cache_valid v
  /\ fst (magnitude v) = norm v
  /\ (forall a r v', x_setter a v = (r, v') ->
        match r with
        | Ok _ => exists f, py_float a = Ok f
                   /\ v' = mk f (_y v) (_z v) None
                   /\ fst (magnitude v') = norm (mk f (_y v) (_z v) None)
        | Raise _ => v' = v
        end)
  /\ (forall a r v', y_setter a v = (r, v') ->
        match r with
        | Ok _ => exists f, py_float a = Ok f
                   /\ v' = mk (_x v) f (_z v) None
                   /\ fst (magnitude v') = norm (mk (_x v) f (_z v) None)
        | Raise _ => v' = v
        end)
  /\ (forall a r v', z_setter a v = (r, v') ->
        r = Ok tt
        /\ v' = mk (_x v) (_y v) a None
        /\ fst (magnitude v') = norm (mk (_x v) (_y v) a None)).
Proof.
  pose proof (reachable_cache_valid v H) as Hv.
  split; [exact Hv|].
  split; [now apply magnitude_is_norm|].
  split; [|split].
  - intros a r v'. unfold x_setter.
    destruct (py_float a) as [f|e]; intros [= <- <-]; [|reflexivity].
    exists f. repeat split.
    now apply magnitude_is_norm, empty_cache_valid.
  - intros a r v'. unfold y_setter.
    destruct (py_float a) as [f|e]; intros [= <- <-]; [|reflexivity].
    exists f. repeat split.
    now apply magnitude_is_norm, empty_cache_valid.
  - intros a r v'. unfold z_setter. intros [= <- <-].
    repeat split.
    now apply magnitude_is_norm, empty_cache_valid.
Qed.

Import PyVal.

Local Open Scope float_scope.

(** The invariant at work: v = Vector(1, 2, 3) after [v.magnitude()]. *)
Lemma magnitude_cache_invariant_witness :
  let v := snd (magnitude (mk (PyFloat 1) (PyFloat 2) (PyFloat 3) None)) in
  reachable v /\ cache_valid v /\ fst (magnitude v) = norm v.
Proof.
  assert (R : reachable
                (snd (magnitude (mk (PyFloat 1) (PyFloat 2) (PyFloat 3) None)))).
  { apply reach_magnitude, (reach_init (PyInt 1) (PyInt 2) (PyInt 3)).
    vm_compute. reflexivity. }
  split; [exact R|].
  split; apply (magnitude_cache_invariant _ R).
Defined.

(** ** The setters (C3) *)

(** C3.  The x and y setters store [float(value)], so after [v.x = 5] the
    getter returns the float 5.0; the z setter stores the value as it is
    given, so after [v.z = 5] the getter returns the int 5, and [v.z = None]
    is stored where [v.x = None] raises TypeError.  All of them clear the
    cache. *)
Theorem z_setter_stores_unconverted :
  let v := mk (PyFloat 1) (PyFloat 2) (PyFloat 3) (Some (PyFloat 4)) in
  x_setter (PyInt 5) v = (Ok tt, mk (PyFloat 5) (PyFloat 2) (PyFloat 3) None)
  /\ y_setter (PyInt 5) v = (Ok tt, mk (PyFloat 1) (PyFloat 5) (PyFloat 3) None)
  /\ z_setter (PyInt 5) v = (Ok tt, mk (PyFloat 1) (PyFloat 2) (PyInt 5) None)
  /\ z (snd (z_setter (PyInt 5) v)) <> PyFloat 5
  /\ x_setter PyNone v = (Raise TypeError, v)
  /\ z_setter PyNone v = (Ok tt, mk (PyFloat 1) (PyFloat 2) PyNone None)
  /\ fst (magnitude (snd (z_setter PyNone v))) = Raise TypeError.
Proof.
  cbv zeta. repeat split; try (vm_compute; reflexivity).
  vm_compute. discriminate.
Qed.

(** ** Equality (C9, C10) *)

Lemma eq_instance_true {num : Type} {N : Number num} (a b : Vector.t num) :
  __eq__ a (Instance b) = Ok true <->
  math_isclose (x a) (x b) = Ok true
  /\ math_isclose (y a) (y b) = Ok true
  /\ math_isclose (z a) (z b) = Ok true.
Proof.
  unfold __eq__, bind.
  destruct (math_isclose (x a) (x b)) as [[|]|e].
  - destruct (math_isclose (y a) (y b)) as [[|]|e'].
    + tauto.
    + split; [discriminate | intros (_ & [=] & _)].
    + split; [discriminate | intros (_ & [=] & _)].
  - split; [discriminate | intros ([=] & _)].
  - split; [discriminate | intros ([=] & _)].
Qed.

(** C9.  [a == b] is True exactly when [math.isclose] holds of each pair of
    coordinates.  On floats that test is equality of the two numbers or,
    for finite ones, a distance within the relative tolerance 1e-09 of
    either or within the absolute tolerance 0.0; it is not equality of bits:
    Vector(1, 2, 3) equals Vector(1.0000000001, 2, 3), and 0.0 equals -0.0. *)
Theorem eq_iff_coordinates_close :
  (forall a b : Vector.t pyval,
      __eq__ a (Instance b) = Ok true <->
      math_isclose (x a) (x b) = Ok true
      /\ math_isclose (y a) (y b) = Ok true
      /\ math_isclose (z a) (z b) = Ok true)
  /\ (forall f g : float,
        math_isclose (PyFloat f) (PyFloat g) =
        Ok (PrimFloat.eqb f g
            || negb (PrimFloat.is_infinity f || PrimFloat.is_infinity g)
               && (PrimFloat.leb (PrimFloat.abs (g - f))
                     (PrimFloat.abs (1e-09 * g))
                   || PrimFloat.leb (PrimFloat.abs (g - f))
                        (PrimFloat.abs (1e-09 * f))
                   || PrimFloat.leb (PrimFloat.abs (g - f)) 0.0))%float)
  /\ __eq__ (mk (PyFloat 1) (PyFloat 2) (PyFloat 3) None)
       (Instance (mk (PyFloat 1.0000000001) (PyFloat 2) (PyFloat 3) None))
     = Ok true
  /\ __eq__ (mk (PyFloat 0) (PyFloat 0) (PyFloat 0) None)
       (Instance (mk (PyFloat (-0)) (PyFloat 0) (PyFloat 0) None))
     = Ok true
  /\ __eq__ (mk (PyFloat 1) (PyFloat 2) (PyFloat 3) None)
       (Instance (mk (PyFloat 1.00000001) (PyFloat 2) (PyFloat 3) None))
     = Ok false.
Proof.
  split; [exact eq_instance_true|].
  split.
  - intros f g.
    change (math_isclose (PyFloat f) (PyFloat g)) with (Ok (isclose_double f g)).
    unfold isclose_double, rel_tol, abs_tol.
    destruct (PrimFloat.eqb f g); [reflexivity|].
    destruct (PrimFloat.is_infinity f || PrimFloat.is_infinity g); reflexivity.
  - repeat split; vm_compute; reflexivity.
Qed.

(** C10.  Compared with anything that is not a Vector, an instance is not
    equal: [__eq__] returns False, whatever the coordinates, and raises
    nothing. *)
Theorem eq_other_is_false {num : Type} {N : Number num}
    (v : Vector.t num) (a : num) :
  __eq__ v (Other a) = Ok false.
Proof. reflexivity. Qed.


(** ** Floats: the methods on instances with float coordinates *)

Lemma int_to_double_1 : int_to_double 1 = Ok 1%float.
Proof. vm_compute. reflexivity. Qed.

Lemma int_to_double_2 : int_to_double 2 = Ok 2%float.
Proof. vm_compute. reflexivity. Qed.

(** A magnitude that is not close to 0.0 is not 0.0: dividing by it raises
    nothing. *)
Lemma not_close_zero_nonzero (m : float) :
  isclose_double m 0 = false -> PrimFloat.eqb m 0 = false.
Proof.
  unfold isclose_double. now destruct (PrimFloat.eqb m 0).
Qed.

Lemma mul_float_vector (a b c k : float) (cache : option float) :
  __mul__ (float_vector a b c cache) (PyFloat k)
  = Ok (Vector3 (a * k) (b * k) (c * k)).
Proof. reflexivity. Qed.

(** On float coordinates [magnitude] returns a float. *)
Lemma magnitude_float (a b c : float) (cache : option float) (m : pyval) :
  fst (magnitude (float_vector a b c cache)) = Ok m ->
  exists mf, m = PyFloat mf.
Proof.
  unfold magnitude, float_vector. cbn [_magnitude option_map].
  destruct cache as [mf|]; cbn.
  - intros [= <-]. now exists mf.
  - unfold norm. cbn [x y z _x _y _z py_pow2 py_add math_sqrt pyval_Number].
    unfold pow2.
    destruct (PrimFloat.is_finite a && PrimFloat.is_infinity (a * a));
      [discriminate|].
    cbn [bind].
    destruct (PrimFloat.is_finite b && PrimFloat.is_infinity (b * b));
      [discriminate|].
    cbn [bind add arith as_double].
    destruct (PrimFloat.is_finite c && PrimFloat.is_infinity (c * c));
      [discriminate|].
    cbn [bind add arith as_double]. unfold sqrt. cbn [bind as_double].
    destruct (PrimFloat.ltb _ _); [discriminate|].
    cbn. intros [= <-]. eexists. reflexivity.
Qed.

(** *** Signs: a sum of squares is never negative *)

Lemma binary_round_aux_sign prec emax s m e l :
  has_sign s (binary_round_aux prec emax s m e l).
Proof.
  unfold binary_round_aux.
  destruct (shr_fexp prec emax m e l) as [mrs' e'].
  destruct (shr_fexp prec emax _ e' loc_Exact) as [mrs'' e''].
  destruct (shr_m mrs''); cbn; trivial.
  destruct (Z.leb _ _); cbn; trivial.
Qed.

Lemma binary_round_sign prec emax s m e :
  has_sign s (binary_round prec emax s m e).
Proof.
  unfold binary_round.
  destruct (shl_align _ _ _) as [mz ez].
  apply binary_round_aux_sign.
Qed.

Lemma SFmul_square_sign prec emax r : has_sign false (SFmul prec emax r r).
Proof.
  destruct r as [s|s| |s m e]; cbn; trivial; try apply xorb_nilpotent.
  rewrite xorb_nilpotent. apply binary_round_aux_sign.
Qed.

Lemma SFadd_sign prec emax r r' :
  has_sign false r -> has_sign false r' ->
  has_sign false (SFadd prec emax r r').
Proof.
  destruct r as [s|s| |s m e], r' as [s'|s'| |s' m' e']; cbn; trivial;
    intros -> ->; cbn; trivial.
  destruct (shl_align m e (Z.min e e')) as [a ?].
  destruct (shl_align m' e' (Z.min e e')) as [b ?].
  cbn. apply binary_round_sign.
Qed.

Lemma SFltb_zero_sign r :
  has_sign false r -> SFltb r (S754_zero false) = false.
Proof.
  destruct r as [s|s| |s m e]; cbn; trivial; intros ->; reflexivity.
Qed.

Lemma sum_of_squares_not_negative (a b c : float) :
  PrimFloat.ltb (a * a + b * b + c * c) 0 = false.
Proof.
  rewrite ltb_spec, !add_spec, !mul_spec.
  apply SFltb_zero_sign.
  repeat apply SFadd_sign; apply SFmul_square_sign.
Qed.

(** [norm] in closed form: OverflowError when a square overflows, and
    otherwise the rounded square root of the rounded sum of squares. *)
Lemma norm_float (a b c : float) (cache : option float) :
  norm (float_vector a b c cache) =
  if square_overflows a || square_overflows b || square_overflows c
  then Raise OverflowError
  else Ok (PyFloat (PrimFloat.sqrt (a * a + b * b + c * c))).
Proof.
  unfold norm, float_vector.
  cbn [x y z _x _y _z py_pow2 py_add math_sqrt pyval_Number].
  unfold pow2. fold (square_overflows a) (square_overflows b)
    (square_overflows c).
  destruct (square_overflows a); [reflexivity|].
  destruct (square_overflows b); [reflexivity|].
  destruct (square_overflows c); [reflexivity|].
  cbn [bind add arith as_double orb]. unfold sqrt. cbn [bind as_double].
  now rewrite sum_of_squares_not_negative.
Qed.

Lemma magnitude_float_valid (a b c : float) (cache : option float) :
  cache_valid (float_vector a b c cache) ->
  fst (magnitude (float_vector a b c cache)) =
  if square_overflows a || square_overflows b || square_overflows c
  then Raise OverflowError
  else Ok (PyFloat (PrimFloat.sqrt (a * a + b * b + c * c))).
Proof.
  intros Hc. rewrite (magnitude_is_norm _ Hc). apply norm_float.
Qed.

(** [magnitude] leaves the coordinates alone. *)
Lemma magnitude_float_state (a b c : float) (cache : option float) :
  exists cache', snd (magnitude (float_vector a b c cache))
                 = float_vector a b c cache'.
Proof.
  destruct (magnitude_state (float_vector a b c cache))
    as [->|(_ & m & Hm & ->)].
  - now exists cache.
  - rewrite norm_float in Hm.
    destruct (_ || _); [discriminate|]. injection Hm as <-.
    now exists (Some (PrimFloat.sqrt (a * a + b * b + c * c))).
Qed.

(** ** direction_cosine (C8) *)

(** C8, as stated, fails: [Vector(1e200, 0, 0).direction_cosine()] raises
    OverflowError, from [self.x**2] in [magnitude()]. *)
Lemma direction_cosine_raises_overflow :
  __init__ (PyFloat 1e200) (PyInt 0) (PyInt 0) = Ok (Vector3 1e200 0 0)
  /\ fst (direction_cosine (Vector3 1e200 0 0)) = Raise OverflowError.
Proof. split; vm_compute; reflexivity. Qed.



Import PyMath.


(** ** Binary64 arithmetic: the facts the operators rely on *)

Lemma SFmul_comm prec emax r r' : SFmul prec emax r r' = SFmul prec emax r' r.
Proof.
  destruct r as [s|s| |s m e], r' as [s'|s'| |s' m' e']; cbn; trivial;
    try (now rewrite xorb_comm).
  now rewrite xorb_comm, Pos.mul_comm, Z.add_comm.
Qed.

Lemma float_mul_comm (f g : float) : f * g = g * f.
Proof.
  apply Prim2SF_inj. rewrite !mul_spec. apply SFmul_comm.
Qed.

(** Multiplying by -1.0 is exact: it flips the sign. *)
Lemma Prim2SF_m1 : Prim2SF (-1) = S754_finite true 4503599627370496 (-52).
Proof. vm_compute. reflexivity. Qed.

Lemma SFmul_m1 r :
  SpecFloat.valid_binary FloatOps.prec FloatOps.emax r = true ->
  SFmul FloatOps.prec FloatOps.emax r
    (S754_finite true 4503599627370496 (-52)) = SFopp r.
Proof.
  destruct r as [s|s| |s m e]; cbn [SFmul SFopp valid_binary]; intros Hv;
    rewrite ?xorb_true_r; trivial.
  unfold bounded, canonical_mantissa in Hv.
  apply andb_true_iff in Hv as [Hcan Hle].
  apply Z.eqb_eq in Hcan.
  rewrite Pos.mul_comm.
  change (4503599627370496 * m)%positive with
    (Pos.iter xO m 52).
  assert (D : forall n p,
             digits2_pos (Pos.iter xO p n) = (digits2_pos p + n)%positive).
  { intros n p. induction n as [|n IH] using Pos.peano_ind.
    - cbn. lia.
    - rewrite Pos.iter_succ. cbn [digits2_pos]. rewrite IH. lia. }
  assert (H1 : shr_fexp FloatOps.prec FloatOps.emax (Z.pos (Pos.iter xO m 52))
                 (e + -52) loc_Exact
               = ({| shr_m := Z.pos m; shr_r := false; shr_s := false |}, e)).
  { unfold shr_fexp, Zdigits2. rewrite D.
    replace (Z.pos (digits2_pos m + 52) + (e + -52))%Z
      with (Z.pos (digits2_pos m) + e)%Z by lia.
    rewrite Hcan.
    replace (e - (e + -52))%Z with 52%Z by lia.
    unfold shr. replace (e + -52 + 52)%Z with e by lia.
    reflexivity. }
  assert (H2 : shr_fexp FloatOps.prec FloatOps.emax (Z.pos m) e loc_Exact
               = ({| shr_m := Z.pos m; shr_r := false; shr_s := false |}, e)).
  { unfold shr_fexp, Zdigits2. rewrite Hcan, Z.sub_diag. reflexivity. }
  unfold binary_round_aux. rewrite H1.
  cbn [shr_m loc_of_shr_record round_nearest_even].
  rewrite H2. cbn [shr_m]. now rewrite Hle.
Qed.

Lemma float_mul_m1 (f : float) : f * (-1) = - f.
Proof.
  apply Prim2SF_inj. rewrite mul_spec, opp_spec, Prim2SF_m1.
  apply SFmul_m1, Prim2SF_valid.
Qed.

(** Subtraction: [p - q] and [q - p] are opposite, or both NaN. *)
Lemma binary_round_aux_opp prec emax s m e l :
  SFopp (binary_round_aux prec emax s m e l)
  = binary_round_aux prec emax (negb s) m e l.
Proof.
  unfold binary_round_aux.
  destruct (shr_fexp prec emax m e l) as [mrs' e'].
  destruct (shr_fexp prec emax _ e' loc_Exact) as [mrs'' e''].
  destruct (shr_m mrs''); cbn; trivial.
  destruct (Z.leb _ _); cbn; trivial.
Qed.

Lemma binary_normalize_opp prec emax m e :
  m <> 0%Z ->
  SFopp (binary_normalize prec emax (- m) e false)
  = binary_normalize prec emax m e false.
Proof.
  destruct m as [|p|p]; [congruence| |]; intros _; cbn; unfold binary_round;
    destruct (shl_align _ _ _) as [mz ez]; now rewrite binary_round_aux_opp.
Qed.

Lemma SFeqb_refl r : SFeqb r r = negb (SFis_nan r).
Proof.
  destruct r as [s|s| |s m e]; cbn; trivial; try (now destruct s).
  unfold SFeqb; cbn. rewrite Z.compare_refl, Pos.compare_cont_refl.
  now destruct s.
Qed.

Lemma SFsub_antisym prec emax r r' :
  (SFis_nan (SFsub prec emax r r') = true
   /\ SFis_nan (SFsub prec emax r' r) = true)
  \/ SFeqb (SFsub prec emax r r') (SFopp (SFsub prec emax r' r)) = true.
Proof.
  destruct r as [s|s| |s m e], r' as [s'|s'| |s' m' e']; cbn [SFsub];
    try (left; split; reflexivity);
    try (destruct s, s'; ((left; split; reflexivity) || (right; reflexivity))).
  all: try (right; cbn [SFopp]; rewrite ?negb_involutive, SFeqb_refl;
            reflexivity).
  rewrite (Z.min_comm e' e).
  set (X := cond_Zopp s (Z.pos (fst (shl_align m e (Z.min e e'))))).
  set (Y := cond_Zopp s' (Z.pos (fst (shl_align m' e' (Z.min e e'))))).
  destruct (Z.eq_dec (X - Y) 0) as [E|E].
  - right. replace (Y - X)%Z with 0%Z by lia. rewrite E. reflexivity.
  - replace (Y - X)%Z with (- (X - Y))%Z by lia.
    rewrite binary_normalize_opp by exact E.
    rewrite SFeqb_refl.
    destruct (SFis_nan _) eqn:N; [left|right; reflexivity].
    split; [reflexivity|].
    rewrite <- (binary_normalize_opp _ _ _ _ E) in N.
    now destruct (binary_normalize _ _ (- (X - Y)) _ _).
Qed.

Lemma Prim2SF_nan (f : float) : Prim2SF f = S754_nan -> f = nan.
Proof.
  intros H. apply Prim2SF_inj. rewrite H. reflexivity.
Qed.

Lemma SFis_nan_spec r : SFis_nan r = true -> r = S754_nan.
Proof. now destruct r. Qed.

Lemma is_nan_spec (f : float) : PrimFloat.is_nan f = SFis_nan (Prim2SF f).
Proof.
  unfold PrimFloat.is_nan. rewrite eqb_spec, SFeqb_refl.
  apply negb_involutive.
Qed.

(** One coordinate of v x w against the same coordinate of (w x v) * -1. *)
Lemma isclose_sub_antisym (p q : float) :
  isclose_double (p - q) ((q - p) * (-1)) = negb (PrimFloat.is_nan (p - q)).
Proof.
  rewrite float_mul_m1, is_nan_spec.
  destruct (SFsub_antisym FloatOps.prec FloatOps.emax (Prim2SF p) (Prim2SF q))
    as [[N1 N2]|E].
  - rewrite <- sub_spec in N1, N2.
    rewrite N1.
    apply SFis_nan_spec, Prim2SF_nan in N1.
    apply SFis_nan_spec, Prim2SF_nan in N2.
    rewrite N1, N2. reflexivity.
  - rewrite <- !sub_spec, <- opp_spec, <- eqb_spec in E.
    unfold isclose_double. rewrite E.
    rewrite eqb_spec in E.
    destruct (Prim2SF (p - q)); try reflexivity. discriminate.
Qed.

(** *** Products and equality on float vectors *)

Lemma cross_float (a b c a' b' c' : float) (k k' : option float) :
  cross_product (float_vector a b c k) (float_vector a' b' c' k')
  = Ok (Vector3 (b * c' - c * b') (c * a' - a * c') (a * b' - b * a')).
Proof. reflexivity. Qed.

Lemma mul_float_vector_m1 (a b c : float) (k : option float) :
  __mul__ (float_vector a b c k) (PyInt (-1))
  = Ok (Vector3 (a * -1) (b * -1) (c * -1)).
Proof. vm_compute. reflexivity. Qed.

Lemma eq_float (a b c a' b' c' : float) (k k' : option float) :
  __eq__ (float_vector a b c k) (Instance (float_vector a' b' c' k'))
  = Ok (isclose_double a a' && isclose_double b b' && isclose_double c c').
Proof.
  unfold __eq__, float_vector. cbn.
  destruct (isclose_double a a'); [|reflexivity].
  destruct (isclose_double b b'); reflexivity.
Qed.

(** X7.  On float coordinates the cross product is anti-commutative under
    [==]: [v.cross_product(w) == w.cross_product(v) * -1] is True, except
    when a coordinate of the product is a NaN (a NaN is close to nothing);
    neither side raises. *)
Theorem cross_product_anticommutative (a b c a' b' c' : float)
    (k k' : option float) :
  let v := float_vector a b c k in
  let w := float_vector a' b' c' k' in
  let p := Vector3 (b * c' - c * b') (c * a' - a * c') (a * b' - b * a') in
  cross_product v w = Ok p
  /\ exists q,
       (wv <- cross_product w v ;; __mul__ wv (int_lit (-1))) = Ok q
       /\ __eq__ p (Instance q)
          = Ok (negb (PrimFloat.is_nan (b * c' - c * b')
                      || PrimFloat.is_nan (c * a' - a * c')
                      || PrimFloat.is_nan (a * b' - b * a'))).
Proof.
  cbv zeta. split; [apply cross_float|].
  rewrite cross_float. cbn [bind]. unfold Vector3 at 1.
  cbn [int_lit pyval_Number].
  rewrite mul_float_vector_m1.
  eexists. split; [reflexivity|].
  unfold Vector3. rewrite eq_float.
  rewrite (float_mul_comm b' c), (float_mul_comm c' b),
          (float_mul_comm c' a), (float_mul_comm a' c),
          (float_mul_comm a' b), (float_mul_comm b' a).
  rewrite !isclose_sub_antisym.
  now rewrite !negb_orb.
Qed.


Lemma isclose_double_refl (f : float) :
  isclose_double f f = negb (PrimFloat.is_nan f).
Proof.
  unfold isclose_double.
  destruct (PrimFloat.eqb f f) eqn:E.
  - unfold PrimFloat.is_nan. now rewrite E.
  - assert (N : PrimFloat.is_nan f = true)
      by (unfold PrimFloat.is_nan; now rewrite E).
    rewrite is_nan_spec in N. apply SFis_nan_spec, Prim2SF_nan in N. subst f.
    reflexivity.
Qed.

(** X8.  An instance with float coordinates equals itself exactly when
    none of its coordinates is a NaN. *)
Theorem eq_reflexive_unless_nan (a b c : float) (k k' : option float) :
  __eq__ (float_vector a b c k) (Instance (float_vector a b c k'))
  = Ok (negb (PrimFloat.is_nan a || PrimFloat.is_nan b || PrimFloat.is_nan c)).
Proof.
  rewrite eq_float, !isclose_double_refl. now rewrite !negb_orb.
Qed.

(** *** Symmetry of math.isclose *)

Lemma SFcompare_antisym r r' :
  SFcompare r' r = option_map CompOpp (SFcompare r r').
Proof.
  destruct r as [s|s| |s m e], r' as [s'|s'| |s' m' e']; cbn;
    try reflexivity; try (now destruct s); try (now destruct s');
    try (now destruct s, s').
  assert (P : Pos.compare_cont Eq m' m = CompOpp (Pos.compare_cont Eq m m'))
    by (now rewrite Pos.compare_cont_antisym).
  destruct s, s'; try reflexivity;
    rewrite (Z.compare_antisym e e');
    destruct (e ?= e')%Z; cbn; try reflexivity;
    rewrite P; now rewrite ?CompOpp_involutive.
Qed.

Lemma SFeqb_sym r r' : SFeqb r r' = SFeqb r' r.
Proof.
  unfold SFeqb. rewrite (SFcompare_antisym r r').
  now destruct (SFcompare r r') as [[]|].
Qed.

Lemma float_eqb_sym (f g : float) : PrimFloat.eqb f g = PrimFloat.eqb g f.
Proof. rewrite !eqb_spec. apply SFeqb_sym. Qed.

Lemma SFabs_opp r : SFabs (SFopp r) = SFabs r.
Proof. now destruct r. Qed.

Lemma SFabs_sub_comm prec emax r r' :
  SFabs (SFsub prec emax r r') = SFabs (SFsub prec emax r' r).
Proof.
  destruct r as [s|s| |s m e], r' as [s'|s'| |s' m' e']; cbn [SFsub];
    try reflexivity; try (now destruct s, s').
  rewrite (Z.min_comm e' e).
  set (X := cond_Zopp s (Z.pos (fst (shl_align m e (Z.min e e'))))).
  set (Y := cond_Zopp s' (Z.pos (fst (shl_align m' e' (Z.min e e'))))).
  destruct (Z.eq_dec (X - Y) 0) as [E|E].
  - replace (Y - X)%Z with 0%Z by lia. now rewrite E.
  - replace (Y - X)%Z with (- (X - Y))%Z by lia.
    now rewrite <- (binary_normalize_opp _ _ _ _ E), SFabs_opp.
Qed.

Lemma float_abs_sub_comm (f g : float) :
  PrimFloat.abs (f - g) = PrimFloat.abs (g - f).
Proof.
  apply Prim2SF_inj. rewrite !abs_spec, !sub_spec. apply SFabs_sub_comm.
Qed.

Lemma isclose_double_sym (f g : float) :
  isclose_double f g = isclose_double g f.
Proof.
  unfold isclose_double.
  rewrite (float_eqb_sym g f), (float_abs_sub_comm f g).
  rewrite (orb_comm (PrimFloat.is_infinity g)).
  destruct (PrimFloat.eqb f g); [reflexivity|].
  destruct (_ || _); [reflexivity|].
  now rewrite (orb_comm (PrimFloat.leb _ (PrimFloat.abs (rel_tol * f)))).
Qed.

(** X9.  [==] is symmetric on float coordinates: [v == w] and [w == v]
    return the same. *)
Theorem eq_symmetric (a b c a' b' c' : float) (k k' : option float) :
  __eq__ (float_vector a b c k) (Instance (float_vector a' b' c' k'))
  = __eq__ (float_vector a' b' c' k') (Instance (float_vector a b c k)).
Proof.
  rewrite !eq_float.
  now rewrite (isclose_double_sym a a'), (isclose_double_sym b b'),
              (isclose_double_sym c c').
Qed.

(** *** Outcomes on float vectors *)

(** [magnitude] on float coordinates: the outcome and the instance after. *)
Lemma magnitude_float_pair (a b c : float) (cache : option float) :
  cache_valid (float_vector a b c cache) ->
  exists cache',
    magnitude (float_vector a b c cache) =
    (if square_overflows a || square_overflows b || square_overflows c
     then Raise OverflowError
     else Ok (PyFloat (PrimFloat.sqrt (a * a + b * b + c * c))),
     float_vector a b c cache').
Proof.
  intros Hc.
  pose proof (magnitude_float_valid a b c cache Hc) as Hf.
  destruct (magnitude_float_state a b c cache) as [cache' Hs].
  exists cache'.
  destruct (magnitude (float_vector a b c cache)) as [r v'].
  cbn [fst snd] in *. now subst.
Qed.

Lemma normalize_float (a b c : float) (cache : option float) :
  cache_valid (float_vector a b c cache) ->
  fst (normalize (float_vector a b c cache)) =
  if square_overflows a || square_overflows b || square_overflows c
  then Raise OverflowError
  else
    let m := PrimFloat.sqrt (a * a + b * b + c * c) in
    if isclose_double m 0 then Raise ValueError
    else Ok (Vector3 (a * (1 / m)) (b * (1 / m)) (c * (1 / m))).
Proof.
  intros Hc. unfold normalize.
  destruct (magnitude_float_pair a b c cache Hc) as [cache' ->].
  destruct (_ || _); [reflexivity|].
  cbv zeta. set (m := PrimFloat.sqrt _).
  cbn [fst bind math_isclose pyval_Number isclose as_double float_zero].
  destruct (isclose_double m 0) eqn:Hz; [reflexivity|].
  apply not_close_zero_nonzero in Hz.
  cbn [py_truediv pyval_Number truediv int_lit as_double].
  rewrite int_to_double_1. cbn [bind]. rewrite Hz.
  apply mul_float_vector.
Qed.

Lemma projection_float (a b c a' b' c' : float) (k k' : option float)
    (Hc : cache_valid (float_vector a' b' c' k')) :
  fst (projection (float_vector a b c k) (float_vector a' b' c' k')) =
  if square_overflows a' || square_overflows b' || square_overflows c'
  then Raise OverflowError
  else
    let m := PrimFloat.sqrt (a' * a' + b' * b' + c' * c') in
    if square_overflows m then Raise OverflowError
    else if isclose_double (m * m) 0 then Raise ValueError
    else
      let q := (a * a' + b * b' + c * c') / (m * m) in
      Ok (Vector3 (a' * q) (b' * q) (c' * q)).
Proof.
  unfold projection.
  pose proof (magnitude_float_valid a' b' c' k' Hc) as Hf.
  destruct (magnitude_float_state a' b' c' k') as [cache' Hs].
  destruct (magnitude (float_vector a' b' c' k')) as [r v'].
  cbn [fst snd] in *. subst r v'.
  destruct (_ || _); [reflexivity|].
  cbv zeta. set (m := PrimFloat.sqrt _).
  cbn [bind py_pow2 pyval_Number pow2]. fold (square_overflows m).
  destruct (square_overflows m); [reflexivity|].
  cbn [bind math_isclose pyval_Number isclose as_double float_zero].
  destruct (isclose_double (m * m) 0) eqn:Hz; [reflexivity|].
  apply not_close_zero_nonzero in Hz.
  change (dot_product (float_vector a b c k) (float_vector a' b' c' cache'))
    with (Ok (PyFloat (a * a' + b * b' + c * c'))).
  cbn [bind py_truediv pyval_Number truediv as_double]. rewrite Hz.
  apply mul_float_vector.
Qed.

Lemma projection_float_cases (a b c a' b' c' : float) (k k' : option float) :
  cache_valid (float_vector a' b' c' k') ->
  (exists e, fst (projection (float_vector a b c k)
                    (float_vector a' b' c' k')) = Raise e)
  \/ (exists pa pb pc, fst (projection (float_vector a b c k)
                             (float_vector a' b' c' k'))
                       = Ok (Vector3 pa pb pc)).
Proof.
  intros Hc. rewrite (projection_float _ _ _ _ _ _ _ _ Hc).
  destruct (_ || _); [left; eexists; reflexivity|].
  cbv zeta.
  destruct (square_overflows _); [left; eexists; reflexivity|].
  destruct (isclose_double _ _); [left; eexists; reflexivity|].
  right. do 3 eexists. reflexivity.
Qed.

Lemma sub_float_vector (a b c pa pb pc : float) (k k' : option float) :
  __sub__ (float_vector a b c k) [float_vector pa pb pc k']
  = Ok (Vector3 (a - (0 + pa)) (b - (0 + pb)) (c - (0 + pc))).
Proof. vm_compute. reflexivity. Qed.

Lemma rmul_float_vector_2 (a b c : float) (k : option float) :
  __rmul__ (float_vector a b c k) (PyInt 2)
  = Ok (Vector3 (a * 2) (b * 2) (c * 2)).
Proof. vm_compute. reflexivity. Qed.







Lemma add_float_vector (a b c pa pb pc : float) (k k' : option float) :
  __add__ (float_vector a b c k) [float_vector pa pb pc k']
  = Ok (Vector3 (a + (0 + pa)) (b + (0 + pb)) (c + (0 + pc))).
Proof. vm_compute. reflexivity. Qed.

(** X5.  On float coordinates [rejection] and [reflect] fail exactly when
    [projection] does, with the same exception; when it returns p they
    return [self - p] and [self - 2 * p] (the operators start their sums
    from 0, hence [0 + p]). *)
Theorem rejection_reflect_outcome (a b c a' b' c' : float)
    (k k' : option float)
    (Hc : cache_valid (float_vector a' b' c' k')) :
  let self := float_vector a b c k in
  let v := float_vector a' b' c' k' in
  match fst (projection self v) with
  | Raise e =>
      fst (rejection self v) = Raise e /\ fst (reflect self v) = Raise e
  | Ok p =>
      exists pa pb pc,
        p = Vector3 pa pb pc
        /\ fst (rejection self v)
           = Ok (Vector3 (a - (0 + pa)) (b - (0 + pb)) (c - (0 + pc)))
        /\ fst (reflect self v)
           = Ok (Vector3 (a - (0 + pa * 2)) (b - (0 + pb * 2))
                         (c - (0 + pc * 2)))
  end.
Proof.
  cbv zeta. unfold rejection, reflect.
  destruct (projection_float_cases a b c a' b' c' k k' Hc)
    as [[e He]|(pa & pb & pc & Hp)];
    destruct (projection (float_vector a b c k) (float_vector a' b' c' k'))
      as [r v']; cbn [fst] in *; subst r.
  - split; reflexivity.
  - exists pa, pb, pc. split; [reflexivity|].
    cbn [bind fst]. unfold Vector3.
    rewrite rmul_float_vector_2. cbn [bind]. unfold Vector3.
    now rewrite !sub_float_vector.
Qed.

Lemma rejection_reflect_outcome_witness :
  cache_valid (Vector3 0 0 2)
  /\ fst (rejection (Vector3 1 2 3) (Vector3 0 0 2)) = Ok (Vector3 1 2 0)
  /\ fst (reflect (Vector3 1 2 3) (Vector3 0 0 2)) = Ok (Vector3 1 2 (-3)).
Proof.
  assert (Hc : cache_valid (Vector3 0 0 2)) by (intros m [=]).
  split; [exact Hc|].
  pose proof (rejection_reflect_outcome 1 2 3 0 0 2 None None Hc) as H.
  cbv zeta in H.
  change (fst (projection (float_vector 1 2 3 None) (float_vector 0 0 2 None)))
    with (@Ok (Vector.t pyval) (Vector3 0 0 3)) in H.
  destruct H as (pa & pb & pc & E & H1 & H2).
  injection E as <- <- <-.
  split; [exact H1 | exact H2].
Defined.
(** *** Angles on float vectors *)





Section LibmAngles.

Variables acos cos sin : float -> float.

(** The C library's acos is a number on [-1, 1]. *)
Hypothesis acos_defined :
  forall d, PrimFloat.leb (-1) d = true -> PrimFloat.leb d 1 = true ->
            PrimFloat.is_nan (acos d) = false
            /\ PrimFloat.is_infinity (acos d) = false.




Lemma math_1_float (f : float -> float) (d : float) :
  math_1 f (PyFloat d) = Raise ValueError
  \/ math_1 f (PyFloat d) = Ok (PyFloat (f d)).
Proof.
  unfold math_1. cbn [as_double bind].
  destruct (_ && _); [now left|].
  destruct (_ && _); [now left | now right].
Qed.

Lemma rotate_around_float (a b c a' b' c' angle : float)
    (k k' : option float) (degrees : bool) :
  cache_valid (float_vector a' b' c' k') ->
  let self := float_vector a b c k in
  let axis := float_vector a' b' c' k' in
  let rad := if degrees then angle * degToRad else angle in
  match fst (normalize axis) with
  | Raise e =>
      fst (rotate_around (T := pyval_Trig acos cos sin)
             self (PyFloat angle) degrees axis) = Raise e
  | Ok _ =>
      match math_1 cos (PyFloat rad), math_1 sin (PyFloat rad) with
      | Ok _, Ok _ =>
          exists ra rb rc,
            fst (rotate_around (T := pyval_Trig acos cos sin)
                   self (PyFloat angle) degrees axis)
            = Ok (Vector3 ra rb rc)
      | _, _ =>
          fst (rotate_around (T := pyval_Trig acos cos sin)
                 self (PyFloat angle) degrees axis) = Raise ValueError
      end
  end.
Proof.
  intros Hc. cbv zeta. unfold rotate_around.
  assert (R : (if degrees
               then math_radians (Trig := pyval_Trig acos cos sin)
                      (PyFloat angle)
               else Ok (PyFloat angle))
              = Ok (PyFloat (if degrees then angle * degToRad else angle)))
    by (now destruct degrees).
  rewrite R. clear R. set (rad := if degrees then _ else _).
  pose proof (normalize_float a' b' c' k' Hc) as Hn.
  destruct (normalize (float_vector a' b' c' k')) as [r axis'].
  cbn [fst] in *. subst r.
  destruct (_ || _); [reflexivity|].
  cbv zeta in *. destruct (isclose_double _ 0); [reflexivity|].
  cbn [bind math_cos math_sin pyval_Trig].
  destruct (math_1_float cos rad) as [-> | ->]; [reflexivity|].
  cbn [bind]. unfold Vector3 at 1 2 3 4.
  rewrite mul_float_vector. cbn [bind]. rewrite cross_float. cbn [bind].
  destruct (math_1_float sin rad) as [-> | ->]; [reflexivity|].
  cbn [bind]. unfold Vector3.
  rewrite mul_float_vector. cbn [bind]. unfold Vector3.
  rewrite add_float_vector. cbn [bind].
  change (dot_product (float_vector ?p ?q ?r None) (float_vector a b c k))
    with (Ok (PyFloat (p * a + q * b + r * c))).
  cbn [bind]. rewrite mul_float_vector. cbn [bind].
  cbn [py_sub pyval_Number sub arith int_lit as_double].
  rewrite int_to_double_1. cbn [bind].
  unfold Vector3. rewrite mul_float_vector. cbn [bind]. unfold Vector3.
  rewrite add_float_vector. do 3 eexists. reflexivity.
Qed.

End LibmAngles.



(** X11.  On float coordinates and a float angle, [rotate_around] fails
    exactly as [axis.normalize()] does (ValueError for a zero axis) or,
    after it, with the ValueError of [math.cos] or [math.sin] (an infinite
    angle); otherwise it returns a vector: the arithmetic of Rodrigues'
    formula raises nothing. *)
Theorem rotate_around_outcome (acos cos sin : float -> float)
    (a b c a' b' c' angle : float) (k k' : option float) (degrees : bool)
    (Hc : cache_valid (float_vector a' b' c' k')) :
  let self := float_vector a b c k in
  let axis := float_vector a' b' c' k' in
  let rad := if degrees then angle * degToRad else angle in
  match fst (normalize axis) with
  | Raise e =>
      fst (rotate_around (T := pyval_Trig acos cos sin)
             self (PyFloat angle) degrees axis) = Raise e
  | Ok _ =>
      match math_1 cos (PyFloat rad), math_1 sin (PyFloat rad) with
      | Ok _, Ok _ =>
          exists ra rb rc,
            fst (rotate_around (T := pyval_Trig acos cos sin)
                   self (PyFloat angle) degrees axis)
            = Ok (Vector3 ra rb rc)
      | _, _ =>
          fst (rotate_around (T := pyval_Trig acos cos sin)
                 self (PyFloat angle) degrees axis) = Raise ValueError
      end
  end.
Proof. now apply rotate_around_float. Qed.

(** Rotating about the zero vector. *)
Lemma rotate_around_outcome_witness :
  fst (rotate_around (T := pyval_Trig (fun _ => 0) (fun _ => 1) (fun _ => 0))
         (Vector3 1 2 3) (PyFloat 0) true (Vector3 0 0 0))
  = Raise ValueError.
Proof.
  assert (Hc : cache_valid (Vector3 0 0 0)) by (intros m [=]).
  exact (rotate_around_outcome (fun _ => 0) (fun _ => 1) (fun _ => 0)
           1 2 3 0 0 0 0 None None true Hc).
Defined.

(** ** What the methods leave alone *)

Section Frame.

Context {num : Type} {N : Number num} {T : Trig num}.

Implicit Types v self : Vector.t num.

Lemma rotate_around_state self angle degrees v :
  snd (rotate_around self angle degrees v) = v
  \/ snd (rotate_around self angle degrees v) = snd (magnitude v).
Proof.
  unfold rotate_around.
  destruct (if degrees then math_radians angle else Ok angle); [|now left].
  right. rewrite <- normalize_state. now destruct (normalize v).
Qed.

Lemma angle_between_state_v self v degrees :
  snd (angle_between self v degrees) = v
  \/ snd (angle_between self v degrees) = snd (magnitude v).
Proof.
  unfold angle_between.
  destruct (magnitude self) as [[m|e] self']; [|now left].
  right. now destruct (magnitude v).
Qed.

Lemma angle_between_state_self self v degrees :
  snd (fst (angle_between self v degrees)) = snd (magnitude self).
Proof.
  unfold angle_between.
  destruct (magnitude self) as [[m|e] self']; [|reflexivity].
  now destruct (magnitude v).
Qed.

End Frame.

(** X12.  No method other than the setters changes a coordinate, and the
    only change any of them makes to an instance is to fill an empty cache
    with the norm of its coordinates: this holds of the receiver of
    [magnitude], [normalize], [is_zero], [is_unit] and [direction_cosine],
    of the argument of [projection], [rejection], [reflect] and
    [rotate_around], and of both operands of [angle_between], whether the
    call returns or raises. *)
Theorem methods_touch_only_the_cache {num : Type} {N : Number num}
    {T : Trig num} (self v : Vector.t num) (angle : num) (degrees : bool) :
  let filled (v' : Vector.t num) :=
    v' = v
    \/ (_magnitude v = None
        /\ exists m, norm v = Ok m
                     /\ v' = mk (_x v) (_y v) (_z v) (Some m)) in
  Forall filled
    [ snd (magnitude v); snd (normalize v); snd (is_zero v);
      snd (is_unit v); snd (direction_cosine v);
      snd (projection self v); snd (rejection self v);
      snd (reflect self v); snd (rotate_around self angle degrees v);
      snd (angle_between self v degrees);
      snd (fst (angle_between v self degrees)) ].
Proof.
  cbv zeta.
  pose proof (magnitude_state v) as M.
  rewrite normalize_state, is_zero_state, is_unit_state,
    direction_cosine_state, projection_state, rejection_state, reflect_state,
    angle_between_state_self.
  repeat (apply Forall_cons; [exact M|]).
  apply Forall_cons.
  { destruct (rotate_around_state self angle degrees v) as [-> | ->];
      [now left | exact M]. }
  apply Forall_cons.
  { destruct (angle_between_state_v self v degrees) as [-> | ->];
      [now left | exact M]. }
  apply Forall_cons; [exact M | constructor].
Qed.

(** ** Exact arithmetic: the identities the methods implement

    From here on the coordinates are real numbers ([Exact]): what is proved
    is what the formulas of Vector.py compute when nothing is rounded. *)

Section ExactFacts.

Import Exact ExactMath.

Local Open Scope R_scope.

Implicit Types v w n self : Vector.t R.
























































End ExactFacts.
